(** * fstore: a facade over a Firestore client

    Shallow embedding of [store.go] (package [store]) and verification of
    its query / mutation helpers.

    The package owns no storage: every method builds a query or takes a
    document reference and hands it to the Firestore SDK.  The SDK is
    therefore a parameter of the development (record [Client], a set of
    state-passing functions over an arbitrary service state), and the methods
    of [*Firestore] are functions in a small state-and-panic monad over it.
    Two concrete clients are provided: a scripted test double, and an
    in-memory reference store that evaluates queries. *)

From Stdlib Require Import ZArith String Ascii List Lia.
From stdpp Require Import base option list strings gmap pretty.

Set Warnings "-register-all".

Local Open Scope string_scope.
Local Open Scope Z_scope.

(** ** Go preliminaries *)

(** A Go pointer (or interface value) that may be [nil]. *)
Definition ptr (A : Type) : Type := option A.
Definition nil {A : Type} : ptr A := None.

(** [len] of a slice is a Go [int]. *)
Definition len {A : Type} (l : list A) : Z := Z.of_nat (length l).

(** ** fmt.Sprintf, restricted to what the package's format strings need:
    literal text, [%%], and single-character verbs without flags, width or
    precision, applied to string operands ([%s] and [%v] print the operand;
    the verbs [q], [x], [X] are not modelled). *)

Module fmt.

Definition operands (a : list string) : string :=
  String.concat ", " (map (fun x => "string=" ++ x) a).

(** Operands left over once the format is exhausted. *)
Definition extra (a : list string) : string :=
  match a with
  | [] => ""
  | _ => "%!(EXTRA " ++ operands a ++ ")"
  end.

Definition is_string_verb (verb : ascii) : bool :=
  (Ascii.eqb verb "s" || Ascii.eqb verb "v")%char.

Fixpoint Sprintf (format : string) (a : list string) : string :=
  match format with
  | EmptyString => extra a
  | String "%" EmptyString => "%!(NOVERB)" ++ extra a
  | String "%" (String "%" rest) => String "%" (Sprintf rest a)
  | String "%" (String verb rest) =>
      match a with
      | [] => "%!" ++ String verb "(MISSING)" ++ Sprintf rest []
      | x :: a' =>
          (if is_string_verb verb then x
           else "%!" ++ String verb "(string=" ++ x ++ ")")
          ++ Sprintf rest a'
      end
  | String ch rest => String ch (Sprintf rest a)
  end.

End fmt.

(** ** github.com/pkg/errors *)

Module errors.

(** Error values.  [fundamental] is what [errors.New] allocates,
    [withMessage] what [errors.Wrap] and [errors.Wrapf] build around a cause
    (the attached stack trace is not modelled), and [foreign] is any error
    value produced outside this package, i.e. by the SDK. *)
Inductive error_value : Type :=
| fundamental (msg : string)
| foreign (msg : string)
| withMessage (cause : error_value) (msg : string).

(** The Go interface type [error]; [nil] is [None]. *)
Definition error : Type := ptr error_value.

Definition New (message : string) : error_value := fundamental message.

(** [err.Error()]. *)
Fixpoint Error (e : error_value) : string :=
  match e with
  | fundamental msg => msg
  | foreign msg => msg
  | withMessage cause msg => msg ++ ": " ++ Error cause
  end.

(** [errors.Cause(err)]: strip every wrapper that has a [Cause()] method. *)
Fixpoint Cause (e : error_value) : error_value :=
  match e with
  | withMessage cause _ => Cause cause
  | _ => e
  end.

(** [errors.Wrap(err, message)]; wrapping [nil] yields [nil]. *)
Definition Wrap (err : error) (message : string) : error :=
  match err with
  | None => None
  | Some e => Some (withMessage e message)
  end.

(** [errors.Wrapf(err, format, args...)]: the message is formatted by
    [fmt.Sprintf]. *)
Definition Wrapf (err : error) (format : string) (args : list string) : error :=
  match err with
  | None => None
  | Some e => Some (withMessage e (fmt.Sprintf format args))
  end.

End errors.


(** ** cloud.google.com/go/firestore: the types the package handles *)

Module firestore.
Export errors.

(** Values of Go's [interface{}] that Firestore can store or compare
    against (floating-point numbers, timestamps and references are left
    out). *)
Inductive value : Type :=
| VNil
| VBool (b : bool)
| VInt (n : Z)
| VString (s : string)
| VArray (elems : list value)
| VMap (fields : list (string * value)).

(** [firestore.Direction]. *)
Inductive Direction : Type := Asc | Desc.

(** A [firestore.Query] as the chain of builder calls that produced it:
    [client.Collection(c)], [q.Where(path, op, v)], [q.OrderBy(path, dir)],
    [q.Limit(n)]. *)
Inductive Query : Type :=
| Collection (path : string)
| Where (q : Query) (path op : string) (v : value)
| OrderBy (q : Query) (path : string) (dir : Direction)
| Limit (q : Query) (n : Z).

(** A query predicate: field, operator, comparison value. *)
Definition Predicate : Type := (string * string * value)%type.

(** What a query asks for.  The builder accumulates predicates and orderings
    in call order; the innermost call names the collection and the outermost
    [Limit] is the one in force. *)
Fixpoint Query_collection (q : Query) : string :=
  match q with
  | Collection path => path
  | Where q' _ _ _ | OrderBy q' _ _ | Limit q' _ => Query_collection q'
  end.

Fixpoint Query_predicates (q : Query) : list Predicate :=
  match q with
  | Collection _ => []
  | Where q' path op v => (Query_predicates q' ++ [(path, op, v)])%list
  | OrderBy q' _ _ | Limit q' _ => Query_predicates q'
  end.

Fixpoint Query_orders (q : Query) : list (string * Direction) :=
  match q with
  | Collection _ => []
  | OrderBy q' path dir => (Query_orders q' ++ [(path, dir)])%list
  | Where q' _ _ _ | Limit q' _ => Query_orders q'
  end.

Fixpoint Query_limit (q : Query) : option Z :=
  match q with
  | Collection _ => None
  | Limit _ n => Some n
  | Where q' _ _ _ | OrderBy q' _ _ => Query_limit q'
  end.

(** [firestore.DocumentRef]: the collection and the identifier. *)
Record DocumentRef : Type := mkRef { Parent : string; ID : string }.

(** [firestore.DocumentSnapshot]: the reference and the fields read. *)
Record DocumentSnapshot : Type :=
  mkSnapshot { Ref : DocumentRef; Data : list (string * value) }.

(** The SDK calls the package makes, over a service state [S].  Each is one
    round trip: it returns the Go results and the state the service is left
    in.  [Documents_GetAll ctx q] is [q.Documents(ctx).GetAll()];
    [Collection_Add ctx c d] is [client.Collection(c).Add(ctx, d)] (the
    [*WriteResult] in the middle, which the package discards, is omitted, as
    it is for [Set] and [Delete]); the [DocumentRef_] functions are the
    methods of [*DocumentRef], called on a possibly [nil] receiver. *)
Record Client (Context S : Type) : Type := mkClient {
  Documents_GetAll :
    Context -> Query -> S -> (list (ptr DocumentSnapshot) * error) * S;
  Collection_Add :
    Context -> string -> value -> S -> (ptr DocumentRef * error) * S;
  DocumentRef_Get :
    Context -> ptr DocumentRef -> S -> (ptr DocumentSnapshot * error) * S;
  DocumentRef_Set :
    Context -> ptr DocumentRef -> value -> S -> error * S;
  DocumentRef_Delete :
    Context -> ptr DocumentRef -> S -> error * S
}.

Arguments Documents_GetAll {Context S} _ _ _ _.
Arguments Collection_Add {Context S} _ _ _ _ _.
Arguments DocumentRef_Get {Context S} _ _ _ _.
Arguments DocumentRef_Set {Context S} _ _ _ _ _.
Arguments DocumentRef_Delete {Context S} _ _ _ _.

End firestore.

(** ** Package store *)

Module store.
Export firestore.

(** The package-level sentinels. *)
Definition ErrNotFound : error_value := errors.New "document not found".
Definition ErrInvalidID : error_value := errors.New "ID is not in its proper form".
Definition ErrDocsNotFound : error_value :=
  errors.New "error getting documents snapshots".
Definition ErrForbidden : error_value :=
  errors.New "attempted action is not allowed".

(** How a call ends: it returns, or the goroutine panics. *)
Inductive outcome (A : Type) : Type :=
| Done (a : A)
| Panic (msg : string).
Arguments Done {A} a.
Arguments Panic {A} msg.

(** Computations of the package: they thread the service state and may
    panic. *)
Definition M (S A : Type) : Type := S -> outcome (A * S).

Definition ret {S A : Type} (a : A) : M S A := fun s => Done (a, s).

Definition bind {S A B : Type} (m : M S A) (k : A -> M S B) : M S B :=
  fun s =>
    match m s with
    | Done (a, s') => k a s'
    | Panic msg => Panic msg
    end.

(** A call into the SDK. *)
Definition sdk {S A : Type} (f : S -> A * S) : M S A := fun s => Done (f s).

(** [ds[i]]: a run-time panic when [i] is out of range. *)
Definition index {S A : Type} (ds : list A) (i : Z) : M S A :=
  fun s =>
    if (0 <=? i) && (i <? len ds) then
      match nth_error ds (Z.to_nat i) with
      | Some d => Done (d, s)
      | None => Panic "index out of range"
      end
    else Panic "index out of range".

Declare Scope go_scope.
Delimit Scope go_scope with go.
Notation "'let*' x := m 'in' k" := (bind m (fun x => k))
  (at level 10, x pattern, m at level 100, k at level 200) : go_scope.

(** [err != nil]. *)
Definition failed (err : error) : bool :=
  match err with Some _ => true | None => false end.

Section Firestore.

Context {Context S : Type}.

(** The receiver [fs *Firestore]: a struct holding the client. *)
Variable fs : Client Context S.

Local Open Scope go_scope.

(** The query each method builds before it runs it. *)
Definition FindOneByField_query (c f op : string) (v : value) : Query :=
  Limit (Where (Collection c) f op v) 1.

Definition FindOneByTwoFields_query
  (c ff fop : string) (fv : value) (sf sop : string) (sv : value) : Query :=
  Limit (Where (Where (Collection c) ff fop fv) sf sop sv) 1.

Definition FindAllByField_query (c f op : string) (v : value) : Query :=
  Where (Collection c) f op v.

Definition FindAllByFieldAndOrder_query
  (c f op : string) (v : value) (p : string) (dir : Direction) : Query :=
  OrderBy (Where (Collection c) f op v) p dir.

Definition FindAllByTwoFields_query
  (c ff fop : string) (fv : value) (sf sop : string) (sv : value) : Query :=
  Where (Where (Collection c) ff fop fv) sf sop sv.

(** [v] is a Go [string] here, not an [interface{}]. *)
Definition FindFromArray_query (c f v : string) : Query :=
  Where (Collection c) f "array-contains" (VString v).

Definition GetAll_query (c : string) : Query := Collection c.

Definition GetAllByOrder_query (c p : string) (dir : Direction) : Query :=
  OrderBy (Collection c) p dir.

(** FindOneByField returns a document by field. *)
Definition FindOneByField (ctx : Context) (c f op : string) (v : value)
  : M S (ptr DocumentSnapshot * error) :=
  let* (ds, err) :=
    sdk (Documents_GetAll fs ctx (FindOneByField_query c f op v)) in
  if failed err then ret (nil, Some ErrDocsNotFound)
  else if len ds <=? 0 then ret (nil, Some ErrNotFound)
  else let* d := index ds 0 in ret (d, nil).

(** FindOneByTwoFields returns a document by two fields. *)
Definition FindOneByTwoFields (ctx : Context)
  (c ff fop : string) (fv : value) (sf sop : string) (sv : value)
  : M S (ptr DocumentSnapshot * error) :=
  let* (ds, err) :=
    sdk (Documents_GetAll fs ctx (FindOneByTwoFields_query c ff fop fv sf sop sv)) in
  if failed err then ret (nil, Some ErrDocsNotFound)
  else if len ds <=? 0 then ret (nil, Some ErrNotFound)
  else let* d := index ds 0 in ret (d, nil).

(** Delete removes a document by reference. *)
Definition Delete (ctx : Context) (ref : ptr DocumentRef) : M S error :=
  let* err := sdk (DocumentRef_Delete fs ctx ref) in
  if failed err then ret err
  else ret nil.

(** FindAllByField returns the documents matching a field. *)
Definition FindAllByField (ctx : Context) (c f op : string) (v : value)
  : M S (list (ptr DocumentSnapshot) * error) :=
  let* (ds, err) :=
    sdk (Documents_GetAll fs ctx (FindAllByField_query c f op v)) in
  if failed err then ret ([], Some ErrDocsNotFound)
  else if len ds <=? 0 then ret ([], Some ErrNotFound)
  else ret (ds, nil).

(** FindAllByFieldAndOrder; on a failed query the method also prints the
    SDK's error to standard output, which is not modelled. *)
Definition FindAllByFieldAndOrder (ctx : Context)
  (c f op : string) (v : value) (p : string) (dir : Direction)
  : M S (list (ptr DocumentSnapshot) * error) :=
  let* (ds, err) :=
    sdk (Documents_GetAll fs ctx (FindAllByFieldAndOrder_query c f op v p dir)) in
  if failed err then ret ([], Some ErrDocsNotFound)
  else if len ds <=? 0 then ret ([], Some ErrNotFound)
  else ret (ds, nil).

Definition FindAllByTwoFields (ctx : Context)
  (c ff fop : string) (fv : value) (sf sop : string) (sv : value)
  : M S (list (ptr DocumentSnapshot) * error) :=
  let* (ds, err) :=
    sdk (Documents_GetAll fs ctx (FindAllByTwoFields_query c ff fop fv sf sop sv)) in
  if failed err then ret ([], Some ErrDocsNotFound)
  else if len ds <=? 0 then ret ([], Some ErrNotFound)
  else ret (ds, nil).

Definition FindFromArray (ctx : Context) (c f v : string)
  : M S (list (ptr DocumentSnapshot) * error) :=
  let* (ds, err) :=
    sdk (Documents_GetAll fs ctx (FindFromArray_query c f v)) in
  if failed err then ret ([], Some ErrDocsNotFound)
  else if len ds <=? 0 then ret ([], Some ErrNotFound)
  else ret (ds, nil).

Definition GetAll (ctx : Context) (c : string)
  : M S (list (ptr DocumentSnapshot) * error) :=
  let* (ds, err) :=
    sdk (Documents_GetAll fs ctx (GetAll_query c)) in
  if failed err then ret ([], Some ErrDocsNotFound)
  else if len ds <=? 0 then ret ([], Some ErrNotFound)
  else ret (ds, nil).

Definition GetAllByOrder (ctx : Context) (c p : string) (dir : Direction)
  : M S (list (ptr DocumentSnapshot) * error) :=
  let* (ds, err) :=
    sdk (Documents_GetAll fs ctx (GetAllByOrder_query c p dir)) in
  if failed err then ret ([], Some ErrDocsNotFound)
  else if len ds <=? 0 then ret ([], Some ErrNotFound)
  else ret (ds, nil).

(** Add adds a new document to a collection. *)
Definition Add (ctx : Context) (c : string) (d : value)
  : M S (ptr DocumentSnapshot * error) :=
  let* (dRef, err) :=
    sdk (Collection_Add fs ctx c d) in
  if failed err then ret (nil, errors.Wrap err "adding document")
  else
    let* (ds, err) :=
    sdk (DocumentRef_Get fs ctx dRef) in
    if failed err
    then ret (nil, errors.Wrap err "getting document snapshot from firebase")
    else ret (ds, nil).

(** Update sets [data] on a document reference.  The format has one verb and
    the call passes no operand for it. *)
Definition Update (ctx : Context) (df : ptr DocumentRef) (data : value)
  : M S error :=
  let* err := sdk (DocumentRef_Set fs ctx df data) in
  if failed err then ret (errors.Wrapf err "updating document %s" [])
  else ret nil.

End Firestore.

(** *** All the find methods at once *)

(** A call of one of the eight find methods, with its arguments. *)
Inductive FindCall : Type :=
| CallFindOneByField (c f op : string) (v : value)
| CallFindOneByTwoFields
    (c ff fop : string) (fv : value) (sf sop : string) (sv : value)
| CallFindAllByField (c f op : string) (v : value)
| CallFindAllByFieldAndOrder
    (c f op : string) (v : value) (p : string) (dir : Direction)
| CallFindAllByTwoFields
    (c ff fop : string) (fv : value) (sf sop : string) (sv : value)
| CallFindFromArray (c f v : string)
| CallGetAll (c : string)
| CallGetAllByOrder (c p : string) (dir : Direction).

(** What a find method returns beside the error: one snapshot pointer or a
    slice of them. *)
Inductive FindResult : Type :=
| One (d : ptr DocumentSnapshot)
| All (ds : list (ptr DocumentSnapshot)).

(** The query a call runs. *)
Definition issued (call : FindCall) : Query :=
  match call with
  | CallFindOneByField c f op v => FindOneByField_query c f op v
  | CallFindOneByTwoFields c ff fop fv sf sop sv =>
      FindOneByTwoFields_query c ff fop fv sf sop sv
  | CallFindAllByField c f op v => FindAllByField_query c f op v
  | CallFindAllByFieldAndOrder c f op v p dir =>
      FindAllByFieldAndOrder_query c f op v p dir
  | CallFindAllByTwoFields c ff fop fv sf sop sv =>
      FindAllByTwoFields_query c ff fop fv sf sop sv
  | CallFindFromArray c f v => FindFromArray_query c f v
  | CallGetAll c => GetAll_query c
  | CallGetAllByOrder c p dir => GetAllByOrder_query c p dir
  end.

(** Whether the method returns a single snapshot. *)
Definition find_one (call : FindCall) : bool :=
  match call with
  | CallFindOneByField _ _ _ _ | CallFindOneByTwoFields _ _ _ _ _ _ _ => true
  | _ => false
  end.

(** The [nil] the method returns in the place of its result. *)
Definition no_result (call : FindCall) : FindResult :=
  if find_one call then One nil else All [].

Definition as_one {S : Type} (m : M S (ptr DocumentSnapshot * error))
  : M S (FindResult * error) :=
  bind m (fun r => ret (One r.1, r.2)).

Definition as_all {S : Type} (m : M S (list (ptr DocumentSnapshot) * error))
  : M S (FindResult * error) :=
  bind m (fun r => ret (All r.1, r.2)).

(** Dispatch of a call to its method. *)
Definition find {Context S : Type} (fs : Client Context S) (ctx : Context)
  (call : FindCall) : M S (FindResult * error) :=
  match call with
  | CallFindOneByField c f op v => as_one (FindOneByField fs ctx c f op v)
  | CallFindOneByTwoFields c ff fop fv sf sop sv =>
      as_one (FindOneByTwoFields fs ctx c ff fop fv sf sop sv)
  | CallFindAllByField c f op v => as_all (FindAllByField fs ctx c f op v)
  | CallFindAllByFieldAndOrder c f op v p dir =>
      as_all (FindAllByFieldAndOrder fs ctx c f op v p dir)
  | CallFindAllByTwoFields c ff fop fv sf sop sv =>
      as_all (FindAllByTwoFields fs ctx c ff fop fv sf sop sv)
  | CallFindFromArray c f v => as_all (FindFromArray fs ctx c f v)
  | CallGetAll c => as_all (GetAll fs ctx c)
  | CallGetAllByOrder c p dir => as_all (GetAllByOrder fs ctx c p dir)
  end.

(** The three ways a find method can end, by the answer of its query: the
    methods share this shape, which the proofs use as their case analysis. *)
Definition answer (call : FindCall)
  (ds : list (ptr DocumentSnapshot)) (err : error) : FindResult * error :=
  match err, ds with
  | Some _, _ => (no_result call, Some ErrDocsNotFound)
  | None, [] => (no_result call, Some ErrNotFound)
  | None, d :: _ => (if find_one call then One d else All ds, nil)
  end.

(** The comparison values a query carries, in call order. *)
Definition Query_values (q : Query) : list value :=
  map snd (Query_predicates q).

(** The eight find methods by name. *)
Inductive Method : Type :=
| MFindOneByField
| MFindOneByTwoFields
| MFindAllByField
| MFindAllByFieldAndOrder
| MFindAllByTwoFields
| MFindFromArray
| MGetAll
| MGetAllByOrder.

Definition method_of (call : FindCall) : Method :=
  match call with
  | CallFindOneByField _ _ _ _ => MFindOneByField
  | CallFindOneByTwoFields _ _ _ _ _ _ _ => MFindOneByTwoFields
  | CallFindAllByField _ _ _ _ => MFindAllByField
  | CallFindAllByFieldAndOrder _ _ _ _ _ _ => MFindAllByFieldAndOrder
  | CallFindAllByTwoFields _ _ _ _ _ _ _ => MFindAllByTwoFields
  | CallFindFromArray _ _ _ => MFindFromArray
  | CallGetAll _ => MGetAll
  | CallGetAllByOrder _ _ _ => MGetAllByOrder
  end.

(** The methods whose signature has a comparison value. *)
Definition takes_value (m : Method) : bool :=
  match m with
  | MGetAll | MGetAllByOrder => false
  | _ => true
  end.

(** A method accepts [v] when some call of it compares against [v]. *)
Definition accepts (m : Method) (v : value) : Prop :=
  exists call, method_of call = m /\ In v (Query_values (issued call)).

(** A client that never returns more documents than the limit in force. *)
Definition honours_limit {Context S : Type} (fs : Client Context S) : Prop :=
  forall ctx q s n,
    Query_limit q = Some n -> 0 <= n ->
    len (Documents_GetAll fs ctx q s).1.1 <= n.

(** [strings.Contains(s, substr)]. *)
Definition Contains (s substr : string) : bool :=
  match String.index 0 substr s with
  | Some _ => true
  | None => false
  end.

End store.

(** ** A scripted client

    A test double for the SDK: its state is the list of replies still to be
    given; each call consumes the next one, and a call that finds no reply
    of its kind fails. *)

Module scripted.
Import store.

Inductive Reply : Type :=
| ReplyDocs (ds : list (ptr DocumentSnapshot)) (err : error)
| ReplyRef (ref : ptr DocumentRef) (err : error)
| ReplySnapshot (d : ptr DocumentSnapshot) (err : error)
| ReplyStatus (err : error).

Definition unexpected : error := Some (foreign "scripted: unexpected call").

Definition client : Client unit (list Reply) := {|
  Documents_GetAll _ _ s :=
    match s with
    | ReplyDocs ds err :: s' => ((ds, err), s')
    | _ => (([], unexpected), s)
    end;
  Collection_Add _ _ _ s :=
    match s with
    | ReplyRef ref err :: s' => ((ref, err), s')
    | _ => ((nil, unexpected), s)
    end;
  DocumentRef_Get _ _ s :=
    match s with
    | ReplySnapshot d err :: s' => ((d, err), s')
    | _ => ((nil, unexpected), s)
    end;
  DocumentRef_Set _ _ _ s :=
    match s with
    | ReplyStatus err :: s' => (err, s')
    | _ => (unexpected, s)
    end;
  DocumentRef_Delete _ _ s :=
    match s with
    | ReplyStatus err :: s' => (err, s')
    | _ => (unexpected, s)
    end
|}.

(** A transport failure, as the SDK reports it. *)
Definition unavailable : error_value :=
  foreign "rpc error: code = Unavailable desc = connection refused".

End scripted.

(** ** An in-memory document store *)

Module memstore.
Import store.

(** Firestore's order of value types: null, booleans, numbers, strings,
    arrays, maps. *)
Definition rank (v : value) : Z :=
  match v with
  | VNil => 0
  | VBool _ => 1
  | VInt _ => 2
  | VString _ => 3
  | VArray _ => 4
  | VMap _ => 5
  end.

(** Values of one type compare by content (arrays and maps
    lexicographically, maps in the order their fields are listed); values of
    different types compare by [rank]. *)
Fixpoint value_compare (a b : value) {struct a} : comparison :=
  match a, b with
  | VNil, VNil => Eq
  | VBool x, VBool y => Bool.compare x y
  | VInt x, VInt y => Z.compare x y
  | VString x, VString y => String.compare x y
  | VArray xs, VArray ys =>
      (fix elems (xs ys : list value) {struct xs} : comparison :=
         match xs, ys with
         | [], [] => Eq
         | [], _ :: _ => Lt
         | _ :: _, [] => Gt
         | x :: xs', y :: ys' =>
             match value_compare x y with
             | Eq => elems xs' ys'
             | c => c
             end
         end) xs ys
  | VMap xs, VMap ys =>
      (fix fields (xs ys : list (string * value)) {struct xs} : comparison :=
         match xs, ys with
         | [], [] => Eq
         | [], _ :: _ => Lt
         | _ :: _, [] => Gt
         | (k, x) :: xs', (k', y) :: ys' =>
             match String.compare k k' with
             | Eq =>
                 match value_compare x y with
                 | Eq => fields xs' ys'
                 | c => c
                 end
             | c => c
             end
         end) xs ys
  | _, _ => Z.compare (rank a) (rank b)
  end.

Definition value_eqb (a b : value) : bool :=
  match value_compare a b with Eq => true | _ => false end.

(** A range comparison holds only between values of one type. *)
Definition in_range (want : comparison -> bool) (x v : value) : bool :=
  (rank x =? rank v) && want (value_compare x v).

(** The query operators, applied to a field's value [x] and the comparison
    value [v]; [None] for an operator or operand the service rejects. *)
Definition eval_op (op : string) (x v : value) : option bool :=
  if String.eqb op "==" then Some (value_eqb x v)
  else if String.eqb op "!=" then Some (negb (value_eqb x v))
  else if String.eqb op "<" then
    Some (in_range (fun c => match c with Lt => true | _ => false end) x v)
  else if String.eqb op "<=" then
    Some (in_range (fun c => match c with Gt => false | _ => true end) x v)
  else if String.eqb op ">" then
    Some (in_range (fun c => match c with Gt => true | _ => false end) x v)
  else if String.eqb op ">=" then
    Some (in_range (fun c => match c with Lt => false | _ => true end) x v)
  else if String.eqb op "array-contains" then
    Some (match x with
          | VArray elems => existsb (value_eqb v) elems
          | _ => false
          end)
  else if String.eqb op "in" then
    match v with
    | VArray choices => Some (existsb (value_eqb x) choices)
    | _ => None
    end
  else None.

(** The first field of that name. *)
Fixpoint field (name : string) (data : list (string * value)) : option value :=
  match data with
  | [] => None
  | (k, x) :: rest => if String.eqb k name then Some x else field name rest
  end.

(** A document satisfies a predicate when it has the field and the operator
    holds; a document without the field never matches. *)
Definition satisfies (d : DocumentSnapshot) (p : Predicate) : bool :=
  match p with
  | (name, op, v) =>
      match field name (Data d) with
      | Some x => default false (eval_op op x v)
      | None => false
      end
  end.

(** The service accepts a predicate whose operator it knows, applied to an
    operand of the right shape. *)
Definition accepted (p : Predicate) : bool :=
  match p with
  | (_, op, v) => match eval_op op VNil v with Some _ => true | None => false end
  end.

(** Several predicates are a conjunction. *)
Definition matches (ps : list Predicate) (d : DocumentSnapshot) : bool :=
  forallb (satisfies d) ps.

(** Comparison of two documents under a list of orderings, most significant
    first. *)
Fixpoint order_compare (os : list (string * Direction))
  (d d' : DocumentSnapshot) : comparison :=
  match os with
  | [] => Eq
  | (name, dir) :: os' =>
      match field name (Data d), field name (Data d') with
      | Some x, Some y =>
          match value_compare x y, dir with
          | Eq, _ => order_compare os' d d'
          | c, Asc => c
          | c, Desc => CompOpp c
          end
      | _, _ => order_compare os' d d'
      end
  end.

(** Stable insertion sort. *)
Fixpoint insert_by (os : list (string * Direction)) (d : DocumentSnapshot)
  (sorted : list DocumentSnapshot) : list DocumentSnapshot :=
  match sorted with
  | [] => [d]
  | d' :: rest =>
      match order_compare os d d' with
      | Gt => d' :: insert_by os d rest
      | _ => d :: d' :: rest
      end
  end.

Definition sort_by (os : list (string * Direction))
  (ds : list DocumentSnapshot) : list DocumentSnapshot :=
  foldr (insert_by os) [] ds.

(** An ordering leaves out the documents that lack the ordering field. *)
Definition has_fields (os : list (string * Direction))
  (d : DocumentSnapshot) : bool :=
  forallb (fun o => match field o.1 (Data d) with Some _ => true | None => false end)
          os.

(** Query evaluation over the documents of the collection: filter, order,
    cut at the limit.  [None] when the service rejects the query. *)
Definition run_query (q : Query) (docs : list DocumentSnapshot)
  : option (list DocumentSnapshot) :=
  if forallb accepted (Query_predicates q)
     && match Query_limit q with Some n => 0 <=? n | None => true end
  then
    let found := List.filter (matches (Query_predicates q)) docs in
    let ordered :=
      match Query_orders q with
      | [] => found
      | os => sort_by os (List.filter (has_fields os) found)
      end in
    Some match Query_limit q with
         | Some n => take (Z.to_nat n) ordered
         | None => ordered
         end
  else None.

(** The service state: the documents of every collection, in insertion
    order, and the counter identifiers are drawn from. *)
Record Store : Type := mkStore {
  collections : gmap string (list DocumentSnapshot);
  next : nat
}.

Definition documents (c : string) (st : Store) : list DocumentSnapshot :=
  default [] (collections st !! c).

Definition same_document (ref : DocumentRef) (d : DocumentSnapshot) : bool :=
  String.eqb (ID (Ref d)) (ID ref).

Definition put (ref : DocumentRef) (data : list (string * value)) (st : Store)
  : Store :=
  let others :=
    List.filter (fun d => negb (same_document ref d)) (documents (Parent ref) st) in
  {| collections :=
       <[Parent ref := (others ++ [mkSnapshot ref data])%list]> (collections st);
     next := next st |}.

Definition remove (ref : DocumentRef) (st : Store) : Store :=
  {| collections :=
       <[Parent ref :=
           List.filter (fun d => negb (same_document ref d))
                       (documents (Parent ref) st)]> (collections st);
     next := next st |}.

Definition invalid_argument : error :=
  Some (foreign "rpc error: code = InvalidArgument").
Definition not_found : error := Some (foreign "rpc error: code = NotFound").
Definition nil_ref : error := Some (foreign "firestore: nil DocumentRef").
Definition bad_data : error :=
  Some (foreign "firestore: cannot create document from data").

(** Modelled from the spec: the remote document database service behind the
    SDK, which is not part of the repository.  Section 6 of the spec asks of
    it collection-scoped filtered, ordered and limited query execution
    returning a sequence of snapshots, insertion returning a reference, and
    get, set and delete by reference; this client provides them over a
    [Store]. *)
Definition client : Client unit Store := {|
  Documents_GetAll _ q st :=
    match run_query q (documents (Query_collection q) st) with
    | Some ds => ((map Some ds, nil), st)
    | None => (([], invalid_argument), st)
    end;
  Collection_Add _ c d st :=
    match d with
    | VMap data =>
        let ref := mkRef c ("doc" ++ pretty (next st)) in
        let st' := put ref data st in
        ((Some ref, nil),
         {| collections := collections st'; next := Datatypes.S (next st) |})
    | _ => ((nil, bad_data), st)
    end;
  DocumentRef_Get _ ref st :=
    match ref with
    | None => ((nil, nil_ref), st)
    | Some r =>
        match List.find (same_document r) (documents (Parent r) st) with
        | Some d => ((Some d, nil), st)
        | None => ((nil, not_found), st)
        end
    end;
  DocumentRef_Set _ ref data st :=
    match ref, data with
    | None, _ => (nil_ref, st)
    | Some r, VMap fields => (nil, put r fields st)
    | Some _, _ => (bad_data, st)
    end;
  DocumentRef_Delete _ ref st :=
    match ref with
    | None => (nil_ref, st)
    | Some r => (nil, remove r st)
    end
|}.

(** The example collection of the spec. *)
Definition user_a : DocumentSnapshot :=
  mkSnapshot (mkRef "users" "doc0") [("name", VString "a"); ("age", VInt 30)].
Definition user_b : DocumentSnapshot :=
  mkSnapshot (mkRef "users" "doc1") [("name", VString "b"); ("age", VInt 25)].
Definition users : Store :=
  {| collections := {[ "users" := [user_a; user_b] ]}; next := 2 |}.

End memstore.


(** ** Construction of the store *)

Module construction.
Import store.

(** What [New] needs of the Firebase SDK, over a state [W] of the
    environment: [context.Background()], [firebase.NewApp(ctx, config,
    opts...)] and [app.Firestore(ctx)], the latter called on a possibly nil
    [*firebase.App] and returning the client handle. *)
Record Firebase (Context Option Config App Handle W : Type) : Type :=
  mkFirebase {
    Background : Context;
    NewApp :
      Context -> ptr Config -> list Option -> W -> (ptr App * error) * W;
    App_Firestore : Context -> ptr App -> W -> (ptr Handle * error) * W
  }.

Arguments Background {Context Option Config App Handle W} _.
Arguments NewApp {Context Option Config App Handle W} _ _ _ _ _.
Arguments App_Firestore {Context Option Config App Handle W} _ _ _ _.

(** The struct [Firestore]: a firebase firestore client. *)
Record Firestore (Handle : Type) : Type := mkFirestore { Client : ptr Handle }.
Arguments mkFirestore {Handle} _.
Arguments Client {Handle} _.

Section New.

Context {Context Option Config App Handle W : Type}.
Variable firebase : Firebase Context Option Config App Handle W.

Local Open Scope go_scope.

(** The package-level [ctx = context.Background()]. *)
Definition ctx : Context := Background firebase.

(** New returns a [*Firestore] instance. *)
Definition New (opt : Option) : M W (ptr (Firestore Handle) * error) :=
  let* (app, err) := sdk (NewApp firebase (Background firebase) nil [opt]) in
  if failed err then ret (nil, Some (errors.New "error initializing app"))
  else
    let* (fc, err) := sdk (App_Firestore firebase ctx app) in
    if failed err
    then ret (nil, Some (errors.New "error getting firestoreClient"))
    else ret (Some (mkFirestore fc), nil).

End New.

(** A scripted Firebase SDK: the replies still to be given, as for
    [scripted.client]; applications and handles are numbers. *)
Inductive InitReply : Type :=
| ReplyApp (app : ptr nat) (err : error)
| ReplyHandle (fc : ptr nat) (err : error).

Definition scripted_firebase
  : Firebase unit string unit nat nat (list InitReply) := {|
  Background := tt;
  NewApp _ _ _ w :=
    match w with
    | ReplyApp app err :: w' => ((app, err), w')
    | _ => ((nil, scripted.unexpected), w)
    end;
  App_Firestore _ _ w :=
    match w with
    | ReplyHandle fc err :: w' => ((fc, err), w')
    | _ => ((nil, scripted.unexpected), w)
    end
|}.

End construction.

(** ** Observing the calls a method makes *)

Module tracing.
Import store.

(** A call into the SDK, with the context and the arguments it was given. *)
Inductive SdkCall (Context : Type) : Type :=
| SdkGetAll (ctx : Context) (q : Query)
| SdkAdd (ctx : Context) (c : string) (d : value)
| SdkGet (ctx : Context) (ref : ptr DocumentRef)
| SdkSet (ctx : Context) (ref : ptr DocumentRef) (data : value)
| SdkDelete (ctx : Context) (ref : ptr DocumentRef).
Arguments SdkGetAll {Context} ctx q.
Arguments SdkAdd {Context} ctx c d.
Arguments SdkGet {Context} ctx ref.
Arguments SdkSet {Context} ctx ref data.
Arguments SdkDelete {Context} ctx ref.

(** Append a call to the log kept beside the service state. *)
Definition logged {Context S A : Type} (call : SdkCall Context)
  (f : S -> A * S) (st : S * list (SdkCall Context))
  : A * (S * list (SdkCall Context)) :=
  let '(r, s') := f st.1 in (r, (s', (st.2 ++ [call])%list)).

(** The client [fs], answering as [fs] does and logging every call. *)
Definition traced {Context S : Type} (fs : Client Context S)
  : Client Context (S * list (SdkCall Context)) := {|
  Documents_GetAll ctx q :=
    logged (SdkGetAll ctx q) (Documents_GetAll fs ctx q);
  Collection_Add ctx c d :=
    logged (SdkAdd ctx c d) (Collection_Add fs ctx c d);
  DocumentRef_Get ctx ref :=
    logged (SdkGet ctx ref) (DocumentRef_Get fs ctx ref);
  DocumentRef_Set ctx ref data :=
    logged (SdkSet ctx ref data) (DocumentRef_Set fs ctx ref data);
  DocumentRef_Delete ctx ref :=
    logged (SdkDelete ctx ref) (DocumentRef_Delete fs ctx ref)
|}.

(** The collection a call of a find method names. *)
Definition collection_of (call : FindCall) : string :=
  match call with
  | CallFindOneByField c _ _ _
  | CallFindOneByTwoFields c _ _ _ _ _ _
  | CallFindAllByField c _ _ _
  | CallFindAllByFieldAndOrder c _ _ _ _ _
  | CallFindAllByTwoFields c _ _ _ _ _ _
  | CallFindFromArray c _ _
  | CallGetAll c
  | CallGetAllByOrder c _ _ => c
  end.

(** The orderings a call of a find method asks for. *)
Definition orders_of (call : FindCall) : list (string * Direction) :=
  match call with
  | CallFindAllByFieldAndOrder _ _ _ _ p dir
  | CallGetAllByOrder _ p dir => [(p, dir)]
  | _ => []
  end.

End tracing.

(** * Properties *)

Import store.

(** ** How a call into the SDK decides what a method returns *)

Section FindProperties.

Context {Context S : Type}.
Variable fs : Client Context S.
Variable ctx : Context.

Lemma len_cons_positive {A : Type} (x : A) (l : list A) :
  (len (x :: l) <=? 0) = false.
Proof. unfold len. apply Z.leb_gt. rewrite length_cons. lia. Qed.

Lemma index_head {A : Type} (x : A) (l : list A) (s : S) :
  index (x :: l) 0 s = Done (x, s).
Proof.
  unfold index.
  assert (H : (0 <? len (x :: l)) = true).
  { apply Z.ltb_lt. unfold len. rewrite length_cons. lia. }
  rewrite H. reflexivity.
Qed.

Lemma find_one_tail (q : Query) (s : S) :
  bind (sdk (Documents_GetAll fs ctx q))
       (fun r => match r with
                 | (ds, err) =>
                     if failed err then ret (nil, Some ErrDocsNotFound)
                     else if len ds <=? 0 then ret (nil, Some ErrNotFound)
                     else bind (index ds 0) (fun d => ret (d, nil))
                 end) s
  = match Documents_GetAll fs ctx q s with
    | ((ds, err), s') =>
        Done (match err, ds with
              | Some _, _ => (nil, Some ErrDocsNotFound)
              | None, [] => (nil, Some ErrNotFound)
              | None, d :: _ => (d, nil)
              end, s')
    end.
Proof.
  unfold bind, sdk.
  destruct (Documents_GetAll fs ctx q s) as [[ds err] s'].
  destruct err as [e|]; [reflexivity|].
  destruct ds as [|d rest]; [reflexivity|].
  cbn [failed]. rewrite len_cons_positive, index_head. reflexivity.
Qed.

Lemma find_all_tail (q : Query) (s : S) :
  bind (sdk (Documents_GetAll fs ctx q))
       (fun r => match r with
                 | (ds, err) =>
                     if failed err then ret ([], Some ErrDocsNotFound)
                     else if len ds <=? 0 then ret ([], Some ErrNotFound)
                     else ret (ds, nil)
                 end) s
  = match Documents_GetAll fs ctx q s with
    | ((ds, err), s') =>
        Done (match err, ds with
              | Some _, _ => ([], Some ErrDocsNotFound)
              | None, [] => ([], Some ErrNotFound)
              | None, _ :: _ => (ds, nil)
              end, s')
    end.
Proof.
  unfold bind, sdk.
  destruct (Documents_GetAll fs ctx q s) as [[ds err] s'].
  destruct err as [e|]; [reflexivity|].
  destruct ds as [|d rest]; [reflexivity|].
  cbn [failed]. rewrite len_cons_positive. reflexivity.
Qed.

Lemma find_answer (call : FindCall) (s : S) :
  find fs ctx call s =
  match Documents_GetAll fs ctx (issued call) s with
  | ((ds, err), s') => Done (answer call ds err, s')
  end.
Proof.
  destruct call; cbn [find issued];
    unfold as_one, as_all, FindOneByField, FindOneByTwoFields, FindAllByField,
      FindAllByFieldAndOrder, FindAllByTwoFields, FindFromArray, GetAll,
      GetAllByOrder;
    unfold bind at 1;
    first [rewrite find_one_tail | rewrite find_all_tail];
    match goal with
    | |- context [Documents_GetAll fs ctx ?q s] =>
        destruct (Documents_GetAll fs ctx q s) as [[ds err] s']
    end;
    destruct err as [e|]; try reflexivity;
    destruct ds as [|d rest]; reflexivity.
Qed.

(** C1: whenever the query a find method runs fails, whatever the SDK's
    error [e] is and whatever slice came with it, the method returns its nil
    result with [ErrDocsNotFound], which is not [ErrNotFound]. *)
Theorem find_failed_query_is_ErrDocsNotFound
  (call : FindCall) (s : S)
  (ds : list (ptr DocumentSnapshot)) (e : error_value) (s' : S) :
  Documents_GetAll fs ctx (issued call) s = ((ds, Some e), s') ->
  find fs ctx call s = Done ((no_result call, Some ErrDocsNotFound), s')
  /\ Some ErrDocsNotFound <> Some ErrNotFound.
Proof.
  intros Hq. split; [|discriminate].
  rewrite find_answer, Hq. reflexivity.
Qed.


(** C9: no find method panics: the element [ds[0]] is read only on the
    path where the slice has been found non-empty, although reading it from
    an empty slice would panic. *)
Theorem find_never_indexes_empty_slice :
  (forall (call : FindCall) (s : S), exists out, find fs ctx call s = Done out)
  /\ (forall c f op v s, exists out, FindOneByField fs ctx c f op v s = Done out)
  /\ (forall c ff fop fv sf sop sv s,
        exists out, FindOneByTwoFields fs ctx c ff fop fv sf sop sv s = Done out)
  /\ (forall s : S,
        index ([] : list (ptr DocumentSnapshot)) 0 s
        = Panic "index out of range").
Proof.
  repeat split.
  - intros call s. rewrite find_answer.
    destruct (Documents_GetAll fs ctx (issued call) s) as [[ds err] s'].
    eexists. reflexivity.
  - intros c f op v s. unfold FindOneByField. rewrite find_one_tail.
    destruct (Documents_GetAll fs ctx _ s) as [[ds err] s'].
    eexists. reflexivity.
  - intros c ff fop fv sf sop sv s. unfold FindOneByTwoFields.
    rewrite find_one_tail.
    destruct (Documents_GetAll fs ctx _ s) as [[ds err] s'].
    eexists. reflexivity.
Qed.

(** C10: a find method always returns, and the error it returns is nil,
    [ErrDocsNotFound] or [ErrNotFound]: nothing of the SDK's error is kept;
    with an error comes the nil result. *)
Theorem find_error_is_a_sentinel (call : FindCall) (s : S) :
  exists r err s',
    find fs ctx call s = Done ((r, err), s')
    /\ (err = nil \/ err = Some ErrDocsNotFound \/ err = Some ErrNotFound)
    /\ (err = nil \/ r = no_result call).
Proof.
  rewrite find_answer.
  destruct (Documents_GetAll fs ctx (issued call) s) as [[ds err] s'].
  destruct err as [e|]; [|destruct ds as [|d rest]]; cbn [answer];
    do 3 eexists; (split; [reflexivity|]); split; auto.
Qed.

End FindProperties.

(** ** Insert, update, delete *)

Section MutationProperties.

Context {Context S : Type}.
Variable fs : Client Context S.
Variable ctx : Context.

Lemma Cause_withMessage (e : error_value) (msg : string) :
  errors.Cause (withMessage e msg) = errors.Cause e.
Proof. reflexivity. Qed.

Lemma Error_withMessage (e : error_value) (msg : string) :
  errors.Error (withMessage e msg) = msg ++ ": " ++ errors.Error e.
Proof. reflexivity. Qed.

(** C3: [Add] inserts first; if the insert fails it stops there and returns
    the SDK's error wrapped as "adding document"; otherwise it reads the
    document back through the reference the insert returned, in the state
    the insert left, and returns that snapshot, or the read's error wrapped
    as "getting document snapshot from firebase".  A wrapped error keeps its
    cause and shows the cause's message after the description. *)
Theorem Add_inserts_then_reads_back (c : string) (d : value) (s : S) :
  (forall dRef e s1,
     Collection_Add fs ctx c d s = ((dRef, Some e), s1) ->
     Add fs ctx c d s
     = Done ((nil, Some (withMessage e "adding document")), s1))
  /\ (forall dRef s1 ds e s2,
        Collection_Add fs ctx c d s = ((dRef, nil), s1) ->
        DocumentRef_Get fs ctx dRef s1 = ((ds, Some e), s2) ->
        Add fs ctx c d s
        = Done ((nil, Some (withMessage e
                              "getting document snapshot from firebase")), s2))
  /\ (forall dRef s1 ds s2,
        Collection_Add fs ctx c d s = ((dRef, nil), s1) ->
        DocumentRef_Get fs ctx dRef s1 = ((ds, nil), s2) ->
        Add fs ctx c d s = Done ((ds, nil), s2))
  /\ (forall e msg,
        errors.Cause (withMessage e msg) = errors.Cause e
        /\ errors.Error (withMessage e msg) = msg ++ ": " ++ errors.Error e
        /\ withMessage e msg <> ErrNotFound
        /\ withMessage e msg <> ErrDocsNotFound).
Proof.
  unfold Add, bind, sdk. repeat apply conj.
  - intros dRef e s1 ->. reflexivity.
  - intros dRef s1 ds e s2 -> Hget. cbn [failed nil]. rewrite Hget. reflexivity.
  - intros dRef s1 ds s2 -> Hget. cbn [failed nil]. rewrite Hget. reflexivity.
  - intros e msg. rewrite Cause_withMessage, Error_withMessage.
    repeat apply conj; [reflexivity | reflexivity | discriminate | discriminate].
Qed.

(** C4: [Delete] is the SDK's delete of [ref] and nothing more: it returns
    the error the SDK returned, unchanged, nil when the SDK returned nil,
    and leaves the service in the state the SDK's delete left it. *)
Theorem Delete_returns_sdk_error_verbatim (ref : ptr DocumentRef) (s : S) :
  Delete fs ctx ref s = Done (DocumentRef_Delete fs ctx ref s).
Proof.
  unfold Delete, bind, sdk.
  destruct (DocumentRef_Delete fs ctx ref s) as [[e|] s']; reflexivity.
Qed.

(** On a failed set, [Update] wraps the SDK's error with a description that
    does not depend on the reference. *)
Lemma Update_failure (df : ptr DocumentRef) (data : value) (s : S)
  (e : error_value) (s' : S) :
  DocumentRef_Set fs ctx df data s = (Some e, s') ->
  Update fs ctx df data s
  = Done (Some (withMessage e "updating document %!s(MISSING)"), s').
Proof. unfold Update, bind, sdk. intros ->. reflexivity. Qed.

Lemma Update_success (df : ptr DocumentRef) (data : value) (s s' : S) :
  DocumentRef_Set fs ctx df data s = (nil, s') ->
  Update fs ctx df data s = Done (nil, s').
Proof. unfold Update, bind, sdk. intros ->. reflexivity. Qed.

End MutationProperties.

(** C5: when the set of document "doc42" fails, [Update] returns the SDK's
    error wrapped with the description "updating document %!s(MISSING)":
    the verb of the format is never given its operand, and the message does
    not contain the identifier of the document. *)
Theorem Update_message_lacks_identifier :
  let df := Some (mkRef "users" "doc42") in
  let data := VMap [("age", VInt 31)] in
  let script := [scripted.ReplyStatus (Some scripted.unavailable)] in
  exists e,
    Update scripted.client tt df data script = Done (Some e, [])
    /\ errors.Error e
       = "updating document %!s(MISSING): rpc error: code = Unavailable desc = connection refused"
    /\ errors.Cause e = scripted.unavailable
    /\ Contains (errors.Error e) "doc42" = false.
Proof.
  cbv zeta. eexists. split.
  - apply Update_failure. reflexivity.
  - repeat split; vm_compute; reflexivity.
Qed.

(** ** The in-memory store answers queries as a query service should *)

Section MemstoreProperties.

Import memstore.

Lemma In_take {A : Type} (n : nat) (l : list A) (x : A) :
  In x (take n l) -> In x l.
Proof.
  intros H. rewrite <- (firstn_skipn n l). apply in_or_app. left. exact H.
Qed.

Lemma In_insert_by os d sorted x :
  In x (insert_by os d sorted) -> x = d \/ In x sorted.
Proof.
  induction sorted as [|d' rest IH]; cbn [insert_by].
  - intros [<-|[]]. left. reflexivity.
  - destruct (order_compare os d d').
    + intros [<-|H]; [left; reflexivity | right; exact H].
    + intros [<-|H]; [left; reflexivity | right; exact H].
    + intros [<-|H]; [right; left; reflexivity|].
      destruct (IH H) as [->|H']; [left; reflexivity | right; right; exact H'].
Qed.

Lemma In_sort_by os ds x : In x (sort_by os ds) -> In x ds.
Proof.
  unfold sort_by. induction ds as [|d rest IH]; cbn [foldr]; [intros []|].
  intros H. destruct (In_insert_by _ _ _ _ H) as [->|H'].
  - left. reflexivity.
  - right. apply IH, H'.
Qed.

(** Every document a query returns satisfies all of its predicates. *)
Lemma run_query_matches q docs ds d :
  run_query q docs = Some ds -> In d ds ->
  matches (Query_predicates q) d = true.
Proof.
  unfold run_query.
  destruct (forallb accepted (Query_predicates q) && _); [|discriminate].
  intros [= <-] Hin.
  assert (Hordered : forall found' : list DocumentSnapshot,
             In d match Query_orders q with
                  | [] => found'
                  | os => sort_by os (List.filter (has_fields os) found')
                  end -> In d found').
  { intros found'. destruct (Query_orders q) as [|o os]; [tauto|].
    intros H. apply In_sort_by in H. apply filter_In in H. tauto. }
  assert (Hfound : In d (List.filter (matches (Query_predicates q)) docs)).
  { apply Hordered. destruct (Query_limit q); [eapply In_take|]; exact Hin. }
  apply filter_In in Hfound. tauto.
Qed.

(** No query returns more documents than its limit. *)
Lemma memstore_honours_limit : honours_limit memstore.client.
Proof.
  intros ctx q st n Hlimit Hn. cbn [Documents_GetAll memstore.client].
  unfold run_query. rewrite Hlimit.
  destruct (forallb accepted (Query_predicates q) && _); cbn [fst snd].
  - unfold len. rewrite length_map, length_take. lia.
  - unfold len. cbn [length]. lia.
Qed.

End MemstoreProperties.

(** ** The find-one methods, the example of the spec, comparison values *)

(** C6: both find-one methods run a query limited to 1 that carries exactly
    the predicates given, two of them for [FindOneByTwoFields]; when the
    query succeeds with documents the method returns the first, which is the
    only one if the client honours limits; and on the in-memory store the
    snapshot [FindOneByTwoFields] returns satisfies both predicates. *)
Theorem find_one_limit_first_and {Context S : Type}
  (fs : Client Context S) (ctx : Context)
  (c ff fop : string) (fv : value) (sf sop : string) (sv : value) (s : S) :
  (Query_limit (FindOneByField_query c ff fop fv) = Some 1
   /\ Query_predicates (FindOneByField_query c ff fop fv) = [(ff, fop, fv)])
  /\ (Query_limit (FindOneByTwoFields_query c ff fop fv sf sop sv) = Some 1
      /\ Query_predicates (FindOneByTwoFields_query c ff fop fv sf sop sv)
         = [(ff, fop, fv); (sf, sop, sv)])
  /\ (forall d rest s',
        Documents_GetAll fs ctx (FindOneByField_query c ff fop fv) s
        = ((d :: rest, nil), s') ->
        FindOneByField fs ctx c ff fop fv s = Done ((d, nil), s')
        /\ (honours_limit fs -> rest = []))
  /\ (forall d rest s',
        Documents_GetAll fs ctx
          (FindOneByTwoFields_query c ff fop fv sf sop sv) s
        = ((d :: rest, nil), s') ->
        FindOneByTwoFields fs ctx c ff fop fv sf sop sv s = Done ((d, nil), s')
        /\ (honours_limit fs -> rest = []))
  /\ (forall st d st',
        FindOneByTwoFields memstore.client tt c ff fop fv sf sop sv st
        = Done ((Some d, nil), st') ->
        memstore.satisfies d (ff, fop, fv) = true
        /\ memstore.satisfies d (sf, sop, sv) = true).
Proof.
  assert (Honly : forall q d rest s',
             Query_limit q = Some 1 ->
             Documents_GetAll fs ctx q s = ((d :: rest, nil), s') ->
             honours_limit fs -> rest = []).
  { intros q d rest s' Hlimit Hq Hfs.
    specialize (Hfs ctx q s 1 Hlimit ltac:(lia)). rewrite Hq in Hfs.
    cbn [fst snd] in Hfs. unfold len in Hfs. rewrite length_cons in Hfs.
    destruct rest; [reflexivity | cbn [length] in Hfs; lia]. }
  repeat apply conj; try reflexivity.
  - intros d rest s' Hq.
    split; [|exact (Honly (FindOneByField_query c ff fop fv) d rest s' eq_refl Hq)].
    unfold FindOneByField. rewrite find_one_tail, Hq. reflexivity.
  - intros d rest s' Hq.
    split;
      [|exact (Honly (FindOneByTwoFields_query c ff fop fv sf sop sv)
                     d rest s' eq_refl Hq)].
    unfold FindOneByTwoFields. rewrite find_one_tail, Hq. reflexivity.
  - intros st d st'. unfold FindOneByTwoFields. rewrite find_one_tail.
    cbn [Documents_GetAll memstore.client].
    destruct (memstore.run_query _ _) as [ds|] eqn:Hrun; [|discriminate].
    destruct ds as [|d0 rest]; [discriminate|].
    cbn [map]. intros [= -> <-].
    pose proof (run_query_matches _ _ _ d Hrun ltac:(left; reflexivity)) as Hm.
    cbn in Hm. rewrite !andb_true_iff in Hm. tauto.
Qed.

(** C7: [FindAllByFieldAndOrder "users" "age" ">" 0 "age" Asc] asks any
    client for the users with age above 0 ordered by age ascending and
    returns the documents the client found, as they come; in the in-memory
    store holding users a (age 30) and b (age 25), inserted in that order,
    it returns b and then a, without an error. *)
Theorem users_by_age_ascending :
  (forall (Context S : Type) (fs : Client Context S) ctx s d rest s',
     Documents_GetAll fs ctx
       (OrderBy (Where (Collection "users") "age" ">" (VInt 0)) "age" Asc) s
     = ((d :: rest, nil), s') ->
     FindAllByFieldAndOrder fs ctx "users" "age" ">" (VInt 0) "age" Asc s
     = Done ((d :: rest, nil), s'))
  /\ memstore.documents "users" memstore.users
     = [memstore.user_a; memstore.user_b]
  /\ FindAllByFieldAndOrder memstore.client tt
       "users" "age" ">" (VInt 0) "age" Asc memstore.users
     = Done (([Some memstore.user_b; Some memstore.user_a], nil),
             memstore.users)
  /\ map Data [memstore.user_b; memstore.user_a]
     = [[("name", VString "b"); ("age", VInt 25)];
        [("name", VString "a"); ("age", VInt 30)]].
Proof.
  split.
  - intros Context S fs ctx s d rest s' Hq.
    unfold FindAllByFieldAndOrder, FindAllByFieldAndOrder_query.
    rewrite find_all_tail, Hq. reflexivity.
  - repeat split; vm_compute; reflexivity.
Qed.

(** C8, as stated, fails: [FindFromArray] has a comparison value, and no call
    of it compares against the integer 7, because its parameter is a Go
    string. *)
Lemma FindFromArray_rejects_non_string :
  takes_value MFindFromArray = true /\ ~ accepts MFindFromArray (VInt 7).
Proof.
  split; [reflexivity|].
  intros [call [Hmethod Hin]].
  destruct call; try discriminate Hmethod.
  cbn in Hin. destruct Hin as [Heq|[]]. discriminate Heq.
Qed.

(** C8, amended: the five methods with [interface{}] comparison values put
    the caller's value in the query as it is, whatever it is, beside the
    caller's field and operator; [FindFromArray] takes a string and puts that
    string in the query as the operand of the one predicate "array-contains"
    on the caller's field; so a method with a comparison value accepts every
    value, except [FindFromArray], which accepts exactly the strings. *)
Theorem comparison_value_reaches_query_unchanged :
  (forall c f op v, Query_values (FindOneByField_query c f op v) = [v])
  /\ (forall c ff fop fv sf sop sv,
        Query_values (FindOneByTwoFields_query c ff fop fv sf sop sv)
        = [fv; sv])
  /\ (forall c f op v, Query_values (FindAllByField_query c f op v) = [v])
  /\ (forall c f op v p dir,
        Query_values (FindAllByFieldAndOrder_query c f op v p dir) = [v])
  /\ (forall c ff fop fv sf sop sv,
        Query_values (FindAllByTwoFields_query c ff fop fv sf sop sv)
        = [fv; sv])
  /\ (forall c f s, Query_values (FindFromArray_query c f s) = [VString s])
  /\ (forall c f op v,
        Query_predicates (FindOneByField_query c f op v) = [(f, op, v)])
  /\ (forall c ff fop fv sf sop sv,
        Query_predicates (FindOneByTwoFields_query c ff fop fv sf sop sv)
        = [(ff, fop, fv); (sf, sop, sv)])
  /\ (forall c f op v,
        Query_predicates (FindAllByField_query c f op v) = [(f, op, v)])
  /\ (forall c f op v p dir,
        Query_predicates (FindAllByFieldAndOrder_query c f op v p dir)
        = [(f, op, v)])
  /\ (forall c ff fop fv sf sop sv,
        Query_predicates (FindAllByTwoFields_query c ff fop fv sf sop sv)
        = [(ff, fop, fv); (sf, sop, sv)])
  /\ (forall c f s,
        Query_predicates (FindFromArray_query c f s)
        = [(f, "array-contains", VString s)])
  /\ (forall m v,
        accepts m v <->
        takes_value m = true
        /\ (m = MFindFromArray -> exists s, v = VString s)).
Proof.
  repeat apply conj; try reflexivity.
  intros m v. split.
  - intros [call [<- Hin]].
    destruct call; cbn in Hin |- *;
      try contradiction;
      (split; [reflexivity|]); try discriminate.
    intros _. destruct Hin as [<-|[]]. eexists. reflexivity.
  - intros [Htakes Hstring].
    destruct m; try discriminate Htakes.
    + exists (CallFindOneByField "" "" "" v). split; [reflexivity | left; reflexivity].
    + exists (CallFindOneByTwoFields "" "" "" v "" "" v).
      split; [reflexivity | left; reflexivity].
    + exists (CallFindAllByField "" "" "" v). split; [reflexivity | left; reflexivity].
    + exists (CallFindAllByFieldAndOrder "" "" "" v "" Asc).
      split; [reflexivity | left; reflexivity].
    + exists (CallFindAllByTwoFields "" "" "" v "" "" v).
      split; [reflexivity | left; reflexivity].
    + destruct (Hstring eq_refl) as [s ->].
      exists (CallFindFromArray "" "" s). split; [reflexivity | left; reflexivity].
Qed.

(** ** The theorems at concrete inputs *)

(** A transport failure during [FindOneByField]. *)
Lemma find_failed_query_witness :
  let call := CallFindOneByField "users" "name" "==" (VString "a") in
  let script := [scripted.ReplyDocs [] (Some scripted.unavailable)] in
  Documents_GetAll scripted.client tt (issued call) script
  = (([], Some scripted.unavailable), [])
  /\ find scripted.client tt call script
     = Done ((One nil, Some ErrDocsNotFound), []).
Proof.
  cbv zeta. split; [reflexivity|].
  exact (proj1 (find_failed_query_is_ErrDocsNotFound scripted.client tt
                  (CallFindOneByField "users" "name" "==" (VString "a"))
                  [scripted.ReplyDocs [] (Some scripted.unavailable)]
                  [] scripted.unavailable [] eq_refl)).
Defined.


(** A failed insert, a failed read after the insert, and an insert read
    back. *)
Lemma Add_witness :
  let c := "users" in
  let d := VMap [("name", VString "c"); ("age", VInt 41)] in
  let ref := mkRef c "doc2" in
  Add scripted.client tt c d
    [scripted.ReplyRef nil (Some scripted.unavailable)]
  = Done ((nil, Some (withMessage scripted.unavailable "adding document")), [])
  /\ Add scripted.client tt c d
       [scripted.ReplyRef (Some ref) nil;
        scripted.ReplySnapshot nil (Some scripted.unavailable)]
     = Done ((nil, Some (withMessage scripted.unavailable
                           "getting document snapshot from firebase")), [])
  /\ (exists st,
        Add memstore.client tt c d memstore.users
        = Done ((Some (mkSnapshot ref [("name", VString "c"); ("age", VInt 41)]),
                 nil), st)).
Proof.
  cbv zeta. repeat apply conj.
  - exact (proj1 (Add_inserts_then_reads_back scripted.client tt "users"
                    (VMap [("name", VString "c"); ("age", VInt 41)])
                    [scripted.ReplyRef nil (Some scripted.unavailable)])
                 nil scripted.unavailable [] eq_refl).
  - exact (proj1 (proj2 (Add_inserts_then_reads_back scripted.client tt "users"
                    (VMap [("name", VString "c"); ("age", VInt 41)])
                    [scripted.ReplyRef (Some (mkRef "users" "doc2")) nil;
                     scripted.ReplySnapshot nil (Some scripted.unavailable)]))
                 (Some (mkRef "users" "doc2"))
                 [scripted.ReplySnapshot nil (Some scripted.unavailable)]
                 nil scripted.unavailable [] eq_refl eq_refl).
  - eexists.
    eapply (proj1 (proj2 (proj2 (Add_inserts_then_reads_back memstore.client tt
                    "users" (VMap [("name", VString "c"); ("age", VInt 41)])
                    memstore.users)))).
    + reflexivity.
    + reflexivity.
Defined.

(** In "users", both documents have a positive age and the limit keeps the
    first; one of them is also called "a". *)
Lemma find_one_witness :
  FindOneByField memstore.client tt "users" "age" ">" (VInt 0) memstore.users
  = Done ((Some memstore.user_a, nil), memstore.users)
  /\ FindOneByTwoFields memstore.client tt
       "users" "age" ">" (VInt 0) "name" "==" (VString "b") memstore.users
     = Done ((Some memstore.user_b, nil), memstore.users)
  /\ memstore.satisfies memstore.user_b ("age", ">", VInt 0) = true
  /\ memstore.satisfies memstore.user_b ("name", "==", VString "b") = true.
Proof.
  pose proof (find_one_limit_first_and memstore.client tt
                "users" "age" ">" (VInt 0) "name" "==" (VString "b")
                memstore.users) as (_ & _ & Hone & Htwo & Hboth).
  assert (Hq1 :
      Documents_GetAll memstore.client tt
        (FindOneByField_query "users" "age" ">" (VInt 0)) memstore.users
      = (([Some memstore.user_a], nil), memstore.users))
    by (vm_compute; reflexivity).
  assert (Hq2 :
      Documents_GetAll memstore.client tt
        (FindOneByTwoFields_query "users" "age" ">" (VInt 0)
           "name" "==" (VString "b")) memstore.users
      = (([Some memstore.user_b], nil), memstore.users))
    by (vm_compute; reflexivity).
  split; [exact (proj1 (Hone _ _ _ Hq1))|].
  split; [exact (proj1 (Htwo _ _ _ Hq2))|].
  exact (Hboth _ _ _ (proj1 (Htwo _ _ _ Hq2))).
Defined.

(** The example of the spec, answered by a scripted client and by the
    in-memory store. *)
Lemma users_by_age_witness :
  FindAllByFieldAndOrder scripted.client tt "users" "age" ">" (VInt 0) "age" Asc
    [scripted.ReplyDocs [Some memstore.user_b; Some memstore.user_a] nil]
  = Done (([Some memstore.user_b; Some memstore.user_a], nil), [])
  /\ FindAllByFieldAndOrder memstore.client tt
       "users" "age" ">" (VInt 0) "age" Asc memstore.users
     = Done (([Some memstore.user_b; Some memstore.user_a], nil),
             memstore.users).
Proof.
  split.
  - exact (proj1 users_by_age_ascending unit (list scripted.Reply)
             scripted.client tt
             [scripted.ReplyDocs [Some memstore.user_b; Some memstore.user_a] nil]
             (Some memstore.user_b) [Some memstore.user_a] [] eq_refl).
  - exact (proj1 (proj2 (proj2 users_by_age_ascending))).
Defined.

(** Any value for [FindOneByField]; a string for [FindFromArray]. *)
Lemma comparison_value_witness :
  accepts MFindOneByField (VArray [VInt 7; VBool true])
  /\ accepts MFindFromArray (VString "admin").
Proof.
  pose proof comparison_value_reaches_query_unchanged
    as (_ & _ & _ & _ & _ & _ & _ & _ & _ & _ & _ & _ & Haccepts).
  split; apply Haccepts; (split; [reflexivity|]).
  - discriminate.
  - intros _. exists "admin". reflexivity.
Defined.

(** * Further properties of the package *)

(** ** What each method asks of the SDK *)

Section CallsMade.

Import tracing.

Context {Context S : Type}.
Variable fs : Client Context S.
Variable ctx : Context.

Lemma traced_GetAll (q : Query) (s : S) (log : list (SdkCall Context)) :
  Documents_GetAll (traced fs) ctx q (s, log)
  = let '(r, s') := Documents_GetAll fs ctx q s in
    (r, (s', (log ++ [SdkGetAll ctx q])%list)).
Proof. reflexivity. Qed.

(** X1: A find method makes exactly one call into the SDK: the [GetAll] of its
    query, with the caller's context.  It makes no other read and no write,
    and logging the calls changes nothing of what it returns. *)
Theorem find_makes_one_query
  (call : FindCall) (s : S) (log : list (SdkCall Context)) :
  exists r s',
    find fs ctx call s = Done (r, s')
    /\ find (traced fs) ctx call (s, log)
       = Done (r, (s', (log ++ [SdkGetAll ctx (issued call)])%list)).
Proof.
  rewrite !find_answer, traced_GetAll.
  destruct (Documents_GetAll fs ctx (issued call) s) as [[ds err] s'].
  do 2 eexists. split; reflexivity.
Qed.

(** X2: [Add] makes one call, the insert, exactly when the insert fails, and
    then returns the nil snapshot with the insert's error wrapped, in the
    state the insert left; when the insert succeeds it makes exactly two, the
    insert and then the read of the reference the insert returned, both with
    the caller's context, and ends in the state the read left. *)
Theorem Add_makes_one_or_two_calls
  (c : string) (d : value) (s : S) (log : list (SdkCall Context)) :
  exists r s' calls,
    Add fs ctx c d s = Done (r, s')
    /\ Add (traced fs) ctx c d (s, log) = Done (r, (s', (log ++ calls)%list))
    /\ ((exists dRef e,
           Collection_Add fs ctx c d s = ((dRef, Some e), s')
           /\ calls = [SdkAdd ctx c d]
           /\ r = (nil, Some (withMessage e "adding document")))
        \/ (exists dRef s1,
              Collection_Add fs ctx c d s = ((dRef, nil), s1)
              /\ calls = [SdkAdd ctx c d; SdkGet ctx dRef]
              /\ (DocumentRef_Get fs ctx dRef s1).2 = s')).
Proof.
  unfold Add, bind, sdk.
  cbn [Collection_Add DocumentRef_Get traced]. unfold logged. cbn [fst snd].
  destruct (Collection_Add fs ctx c d s) as [[dRef err] s1].
  destruct err as [e|]; cbn [failed].
  - do 3 eexists. split; [reflexivity|]. split; [reflexivity|].
    left. exists dRef, e. repeat split.
  - cbn [fst snd].
    destruct (DocumentRef_Get fs ctx dRef s1) as [[ds err] s2] eqn:Hget.
    exists (if failed err
            then (nil, errors.Wrap err "getting document snapshot from firebase")
            else (ds, nil)), s2, [SdkAdd ctx c d; SdkGet ctx dRef].
    rewrite <- app_assoc.
    destruct err as [e|]; cbn [failed];
      (split; [reflexivity|]); (split; [reflexivity|]);
      right; exists dRef, s1; rewrite Hget; repeat split.
Qed.

(** X3: [Update] makes exactly one call, the set of [data] on [df], and [Delete]
    exactly one, the delete of [ref]: reference, data and context reach the
    SDK as the caller gave them, and the error returned is nil exactly when
    the SDK's is. *)
Theorem Update_and_Delete_make_one_call
  (df : ptr DocumentRef) (data : value) (s : S)
  (log : list (SdkCall Context)) :
  (exists err s',
     Update fs ctx df data s = Done (err, s')
     /\ Update (traced fs) ctx df data (s, log)
        = Done (err, (s', (log ++ [SdkSet ctx df data])%list))
     /\ (err = nil <-> (DocumentRef_Set fs ctx df data s).1 = nil))
  /\ (exists err s',
        Delete fs ctx df s = Done (err, s')
        /\ Delete (traced fs) ctx df (s, log)
           = Done (err, (s', (log ++ [SdkDelete ctx df])%list))
        /\ (err = nil <-> (DocumentRef_Delete fs ctx df s).1 = nil)).
Proof.
  split.
  - unfold Update, bind, sdk. cbn [DocumentRef_Set traced]. unfold logged.
    cbn [fst snd].
    destruct (DocumentRef_Set fs ctx df data s) as [[e|] s'];
      do 2 eexists; (split; [reflexivity|]); (split; [reflexivity|]);
      cbn; split; intros H; (discriminate H || reflexivity).
  - unfold Delete, bind, sdk. cbn [DocumentRef_Delete traced]. unfold logged.
    cbn [fst snd].
    destruct (DocumentRef_Delete fs ctx df s) as [[e|] s'];
      do 2 eexists; (split; [reflexivity|]); (split; [reflexivity|]);
      cbn; split; intros H; (discriminate H || reflexivity).
Qed.

(** X4: The query of a call names the caller's collection, is limited (to 1)
    exactly for the find-one methods, carries an ordering exactly for the two
    ordered methods, and has at most two predicates. *)
Theorem issued_query_shape (call : FindCall) :
  Query_collection (issued call) = collection_of call
  /\ Query_limit (issued call) = (if find_one call then Some 1 else None)
  /\ Query_orders (issued call) = orders_of call
  /\ (length (Query_predicates (issued call)) <= 2)%nat.
Proof. destruct call; repeat split; cbn; lia. Qed.

(** X5: The methods that return a slice return the SDK's slice itself, same
    documents in the same order, whenever the query succeeded with at least
    one document. *)
Theorem find_all_returns_sdk_slice
  (call : FindCall) (s : S) (ds : list (ptr DocumentSnapshot)) (s' : S) :
  find_one call = false ->
  Documents_GetAll fs ctx (issued call) s = ((ds, nil), s') ->
  ds <> [] ->
  find fs ctx call s = Done ((All ds, nil), s').
Proof.
  intros Hall Hq Hds. rewrite find_answer, Hq.
  destruct ds as [|d rest]; [contradiction|].
  cbn [answer nil]. rewrite Hall. reflexivity.
Qed.

(** [FindFromArray] is [FindAllByField] with the operator "array-contains"
    and the string as comparison value. *)
Lemma FindFromArray_is_FindAllByField (c f v : string) (s : S) :
  FindFromArray fs ctx c f v s
  = FindAllByField fs ctx c f "array-contains" (VString v) s.
Proof. reflexivity. Qed.

(** X6: When the SDK answers a query limited to 1 with the first document of its
    answer to the unlimited query, a find-one method returns the error its
    find-all counterpart returns and the first snapshot of its slice (nil
    when there is an error). *)
Theorem find_one_is_head_of_find_all
  (c ff fop : string) (fv : value) (sf sop : string) (sv : value) (s : S) :
  (Documents_GetAll fs ctx (FindOneByField_query c ff fop fv) s
   = (let '((ds, err), s') :=
        Documents_GetAll fs ctx (FindAllByField_query c ff fop fv) s in
      ((take 1 ds, err), s')) ->
   exists ds err s',
     FindAllByField fs ctx c ff fop fv s = Done ((ds, err), s')
     /\ FindOneByField fs ctx c ff fop fv s = Done ((hd nil ds, err), s'))
  /\ (Documents_GetAll fs ctx
        (FindOneByTwoFields_query c ff fop fv sf sop sv) s
      = (let '((ds, err), s') :=
           Documents_GetAll fs ctx
             (FindAllByTwoFields_query c ff fop fv sf sop sv) s in
         ((take 1 ds, err), s')) ->
      exists ds err s',
        FindAllByTwoFields fs ctx c ff fop fv sf sop sv s = Done ((ds, err), s')
        /\ FindOneByTwoFields fs ctx c ff fop fv sf sop sv s
           = Done ((hd nil ds, err), s')).
Proof.
  split; intros Hprefix;
    unfold FindAllByField, FindOneByField, FindAllByTwoFields,
      FindOneByTwoFields;
    rewrite find_one_tail, find_all_tail, Hprefix;
    match goal with
    | |- context [Documents_GetAll fs ctx ?q s] =>
        destruct (Documents_GetAll fs ctx q s) as [[ds err] s']
    end;
    (destruct err as [e|]; [|destruct ds as [|d rest]]);
    do 3 eexists; split; reflexivity.
Qed.

(** X7: When the set fails, [Update] returns the SDK's error under the fixed
    description "updating document %!s(MISSING)": the cause is kept, the
    message is the description followed by the cause's, and the error is
    neither of the find sentinels; the state is the one the set left. *)
Theorem Update_wraps_set_error
  (df : ptr DocumentRef) (data : value) (s : S) (e : error_value) (s' : S) :
  DocumentRef_Set fs ctx df data s = (Some e, s') ->
  exists e',
    Update fs ctx df data s = Done (Some e', s')
    /\ errors.Cause e' = errors.Cause e
    /\ errors.Error e' = "updating document %!s(MISSING): " ++ errors.Error e
    /\ e' <> ErrNotFound /\ e' <> ErrDocsNotFound.
Proof.
  intros Hset. eexists. split; [apply Update_failure, Hset|].
  repeat split; discriminate.
Qed.

Lemma withMessage_not_cause (e : error_value) (msg : string) :
  withMessage e msg <> e.
Proof.
  revert msg. induction e as [m|m|cause IH m]; intros msg H;
    [discriminate H | discriminate H |].
  injection H as Hcause _. exact (IH _ Hcause).
Qed.

(** X8: [Add] always returns, in one of three ways.  The insert failed with
    [e]: nil snapshot, [e] wrapped as "adding document".  The insert
    succeeded and the read of its reference failed with [e]: nil snapshot,
    [e] wrapped as "getting document snapshot from firebase".  Both
    succeeded: the snapshot read, and no error.  A wrapped error is never the
    SDK's error itself and never one of the package's sentinels. *)
Theorem Add_error_is_wrapped (c : string) (d : value) (s : S) :
  exists ds err s',
    Add fs ctx c d s = Done ((ds, err), s')
    /\ ((exists dRef e,
           Collection_Add fs ctx c d s = ((dRef, Some e), s')
           /\ ds = nil
           /\ err = Some (withMessage e "adding document")
           /\ err <> Some e)
        \/ (exists dRef s1 r e,
              Collection_Add fs ctx c d s = ((dRef, nil), s1)
              /\ DocumentRef_Get fs ctx dRef s1 = ((r, Some e), s')
              /\ ds = nil
              /\ err = Some (withMessage e
                               "getting document snapshot from firebase")
              /\ err <> Some e)
        \/ (exists dRef s1,
              Collection_Add fs ctx c d s = ((dRef, nil), s1)
              /\ DocumentRef_Get fs ctx dRef s1 = ((ds, nil), s')
              /\ err = nil))
    /\ (forall e', err = Some e' ->
        ~ In e' [ErrNotFound; ErrInvalidID; ErrDocsNotFound; ErrForbidden]).
Proof.
  assert (Hwrapped : forall e msg e',
             Some (withMessage e msg) = Some e' ->
             ~ In e' [ErrNotFound; ErrInvalidID; ErrDocsNotFound;
                      ErrForbidden]).
  { intros e msg e' [= <-] Hin. cbn in Hin.
    repeat (destruct Hin as [Hin|Hin]; [discriminate Hin|]). exact Hin. }
  assert (Hbare : forall e msg, Some (withMessage e msg) <> Some e).
  { intros e msg [= H]. exact (withMessage_not_cause _ _ H). }
  unfold Add, bind, sdk.
  destruct (Collection_Add fs ctx c d s) as [[dRef [e|]] s1]; cbn [failed].
  - do 3 eexists. split; [reflexivity|]. split; [|apply Hwrapped].
    left. exists dRef, e.
    split; [reflexivity|]. split; [reflexivity|]. split; [reflexivity|].
    apply Hbare.
  - destruct (DocumentRef_Get fs ctx dRef s1) as [[ds [e|]] s2] eqn:Hget;
      cbn [failed].
    + do 3 eexists. split; [reflexivity|]. split; [|apply Hwrapped].
      right. left. exists dRef, s1, ds, e.
      split; [reflexivity|]. split; [exact Hget|]. split; [reflexivity|].
      split; [reflexivity|]. apply Hbare.
    + do 3 eexists. split; [reflexivity|].
      split; [|intros e' H; discriminate H].
      right. right. exists dRef, s1.
      split; [reflexivity|]. split; [exact Hget|]. reflexivity.
Qed.

End CallsMade.

(** ** Construction *)

Section Construction.

Import construction.

Context {Context Option Config App Handle W : Type}.
Variable firebase : Firebase Context Option Config App Handle W.

(** X9: [New] builds the application from the one option, with the background
    context and no configuration; if that fails it stops, without asking for
    a client, and returns "error initializing app"; if the request for the
    client fails it returns "error getting firestoreClient"; otherwise it
    returns a store holding the client the SDK returned.  In both failures
    the SDK's error is dropped: the error returned is the same whatever the
    SDK's was. *)
Theorem New_reports_the_failed_step (opt : Option) (w : W) :
  (forall app e w1,
     NewApp firebase (Background firebase) nil [opt] w = ((app, Some e), w1) ->
     New firebase opt w
     = Done ((nil, Some (errors.New "error initializing app")), w1))
  /\ (forall app w1 fc e w2,
        NewApp firebase (Background firebase) nil [opt] w = ((app, nil), w1) ->
        App_Firestore firebase (Background firebase) app w1
        = ((fc, Some e), w2) ->
        New firebase opt w
        = Done ((nil, Some (errors.New "error getting firestoreClient")), w2))
  /\ (forall app w1 fc w2,
        NewApp firebase (Background firebase) nil [opt] w = ((app, nil), w1) ->
        App_Firestore firebase (Background firebase) app w1 = ((fc, nil), w2) ->
        New firebase opt w = Done ((Some (mkFirestore fc), nil), w2)).
Proof.
  unfold New, construction.ctx, bind, sdk. repeat apply conj.
  - intros app e w1 ->. reflexivity.
  - intros app w1 fc e w2 -> Hfc. cbn [failed nil]. rewrite Hfc. reflexivity.
  - intros app w1 fc w2 -> Hfc. cbn [failed nil]. rewrite Hfc. reflexivity.
Qed.

(** X10: [New] always returns, and returns either a store and no error, or no
    store and an error: never both, never neither.  Its error is one of two
    fixed values, which wrap nothing and are none of the package's
    sentinels. *)
Theorem New_store_xor_error (opt : Option) (w : W) :
  exists st err w',
    New firebase opt w = Done ((st, err), w')
    /\ ((err = nil /\ exists fc, st = Some (mkFirestore fc))
        \/ (st = nil
            /\ exists e,
                 err = Some e
                 /\ (errors.Error e = "error initializing app"
                     \/ errors.Error e = "error getting firestoreClient")
                 /\ errors.Cause e = e
                 /\ ~ In e [ErrNotFound; ErrInvalidID; ErrDocsNotFound;
                            ErrForbidden])).
Proof.
  assert (Hfresh : forall msg,
             msg = "error initializing app"
             \/ msg = "error getting firestoreClient" ->
             ~ In (errors.New msg)
                  [ErrNotFound; ErrInvalidID; ErrDocsNotFound; ErrForbidden]).
  { intros msg [-> | ->] Hin; cbn in Hin;
      repeat (destruct Hin as [Hin|Hin]; [discriminate Hin|]);
      exact Hin. }
  unfold New, construction.ctx, bind, sdk.
  destruct (NewApp firebase (Background firebase) nil [opt] w)
    as [[app [e|]] w1]; cbn [failed].
  - do 3 eexists. split; [reflexivity|]. right. split; [reflexivity|].
    eexists. split; [reflexivity|].
    split; [left; reflexivity|]. split; [reflexivity|].
    apply Hfresh. left. reflexivity.
  - destruct (App_Firestore firebase (Background firebase) app w1)
      as [[fc [e|]] w2]; cbn [failed].
    + do 3 eexists. split; [reflexivity|]. right. split; [reflexivity|].
      eexists. split; [reflexivity|].
      split; [right; reflexivity|]. split; [reflexivity|].
      apply Hfresh. right. reflexivity.
    + do 3 eexists. split; [reflexivity|]. left. split; [reflexivity|].
      eexists. reflexivity.
Qed.

End Construction.

(** ** The further properties at concrete inputs *)

(** Two users come back from [GetAllByOrder] as the SDK listed them. *)
Lemma find_all_returns_sdk_slice_witness :
  find scripted.client tt (CallGetAllByOrder "users" "age" Desc)
    [scripted.ReplyDocs [Some memstore.user_a; Some memstore.user_b] nil]
  = Done ((All [Some memstore.user_a; Some memstore.user_b], nil), []).
Proof.
  apply (find_all_returns_sdk_slice scripted.client tt
           (CallGetAllByOrder "users" "age" Desc)
           [scripted.ReplyDocs [Some memstore.user_a; Some memstore.user_b] nil]
           [Some memstore.user_a; Some memstore.user_b] []).
  - reflexivity.
  - reflexivity.
  - discriminate.
Defined.

(** In "users", the first of the documents with a positive age, and the
    first of those also called "b". *)
Lemma find_one_is_head_witness :
  (exists ds err st,
     FindAllByField memstore.client tt "users" "age" ">" (VInt 0) memstore.users
     = Done ((ds, err), st)
     /\ FindOneByField memstore.client tt "users" "age" ">" (VInt 0)
          memstore.users
        = Done ((hd nil ds, err), st))
  /\ (exists ds err st,
        FindAllByTwoFields memstore.client tt
          "users" "age" ">" (VInt 0) "name" "==" (VString "b") memstore.users
        = Done ((ds, err), st)
        /\ FindOneByTwoFields memstore.client tt
             "users" "age" ">" (VInt 0) "name" "==" (VString "b")
             memstore.users
           = Done ((hd nil ds, err), st)).
Proof.
  pose proof (find_one_is_head_of_find_all memstore.client tt
                "users" "age" ">" (VInt 0) "name" "==" (VString "b")
                memstore.users) as [Hone Htwo].
  split.
  - apply Hone. vm_compute. reflexivity.
  - apply Htwo. vm_compute. reflexivity.
Defined.

(** A set that fails for want of a connection. *)
Lemma Update_wraps_set_error_witness :
  exists e',
    Update scripted.client tt (Some (mkRef "users" "doc1"))
      (VMap [("age", VInt 26)])
      [scripted.ReplyStatus (Some scripted.unavailable)]
    = Done (Some e', [])
    /\ errors.Cause e' = errors.Cause scripted.unavailable
    /\ errors.Error e'
       = "updating document %!s(MISSING): "
         ++ errors.Error scripted.unavailable
    /\ e' <> ErrNotFound /\ e' <> ErrDocsNotFound.
Proof.
  apply (Update_wraps_set_error scripted.client tt
           (Some (mkRef "users" "doc1")) (VMap [("age", VInt 26)])
           [scripted.ReplyStatus (Some scripted.unavailable)]
           scripted.unavailable []).
  reflexivity.
Defined.

(** Bad credentials; a project without Firestore; a working setup. *)
Lemma New_witness :
  let denied := Some (foreign "google: could not find default credentials") in
  construction.New construction.scripted_firebase "credentials.json"
    [construction.ReplyApp nil denied]
  = Done ((nil, Some (errors.New "error initializing app")), [])
  /\ construction.New construction.scripted_firebase "credentials.json"
       [construction.ReplyApp (Some 1%nat) nil;
        construction.ReplyHandle nil denied]
     = Done ((nil, Some (errors.New "error getting firestoreClient")), [])
  /\ construction.New construction.scripted_firebase "credentials.json"
       [construction.ReplyApp (Some 1%nat) nil;
        construction.ReplyHandle (Some 7%nat) nil]
     = Done ((Some (construction.mkFirestore (Some 7%nat)), nil), []).
Proof.
  cbv zeta. repeat apply conj.
  - exact (proj1 (New_reports_the_failed_step construction.scripted_firebase
                    "credentials.json" [construction.ReplyApp nil _])
                 nil _ [] eq_refl).
  - exact (proj1 (proj2 (New_reports_the_failed_step
                    construction.scripted_firebase "credentials.json"
                    [construction.ReplyApp (Some 1%nat) nil;
                     construction.ReplyHandle nil _]))
                 (Some 1%nat) [construction.ReplyHandle nil _] nil _ []
                 eq_refl eq_refl).
  - exact (proj2 (proj2 (New_reports_the_failed_step
                    construction.scripted_firebase "credentials.json"
                    [construction.ReplyApp (Some 1%nat) nil;
                     construction.ReplyHandle (Some 7%nat) nil]))
                 (Some 1%nat) [construction.ReplyHandle (Some 7%nat) nil]
                 (Some 7%nat) [] eq_refl eq_refl).
Defined.
